(** * Verification of the appointment-agent graph (src/react_agent/graph.py)

    Shallow embedding of the LangGraph state machine of the ReAct
    appointment agent: the conversation state, the node functions, the
    conditional edges and a fuel-bounded executor of the compiled graph.
    Language-model and tool collaborators are abstracted as oracles. *)

From Stdlib Require Import String Ascii ZArith List Bool Lia.
Import ListNotations.
Open Scope string_scope.

(** ** Messages (langchain_core.messages) *)

Inductive msg_type := SystemMsg | HumanMsg | AIMsg | ToolMsg.

Record tool_call := mk_tool_call {
  tc_name : string;
  tc_args : string;
  tc_id : string
}.

Record message := mk_message {
  msg_kind : msg_type;
  content : string;
  tool_calls : list tool_call;
  msg_id : option string;
  tool_call_id : option string
}.

(** [AIMessage(content=..., id=...)]. *)
Definition AIMessage (c : string) (id : option string) : message :=
  mk_message AIMsg c [] id None.

(** [isinstance(m, AIMessage)]. *)
Definition is_ai_message (m : message) : bool :=
  match msg_kind m with AIMsg => true | _ => false end.

(** ** Appointments (src/react_agent/tools.py) *)

Record Appointment := mk_appointment {
  ap_id : Z;
  ap_time : string;
  ap_description : string
}.

(** [get_appointments]: the fixed data source of tools.py. *)
Definition get_appointments : list Appointment :=
  [ mk_appointment 1 "2025-01-01 10:00:00" "Home cleaning service";
    mk_appointment 2 "2025-01-05 14:00:00" "Plumbing repair" ].

(** ** Conversation state and node updates *)

Record State := mk_state {
  messages : list message;
  router_stage : Z;
  reschedule_or_cancel_decision : Z;
  appointments : list Appointment;
  appointment_id : Z;
  is_last_step : bool
}.

(** A node returns a partial dictionary; absent keys are [None]. *)
Record Update := mk_update {
  upd_messages : list message;
  upd_router_stage : option Z;
  upd_reschedule_or_cancel_decision : option Z;
  upd_appointments : option (list Appointment);
  upd_appointment_id : option Z
}.

Definition messages_update (ms : list message) : Update :=
  mk_update ms None None None None.

Inductive py_error := ValueError | IndexError | RecursionError.

Inductive result (A : Type) := Ok (a : A) | Err (e : py_error).
Arguments Ok {A} a.
Arguments Err {A} e.

(** ** Python's [int(str)] on ASCII text

    Surrounding whitespace ([Py_ISSPACE]: tab, line feed, vertical tab,
    form feed, carriage return and space) is stripped, an optional sign
    is accepted, then decimal digits with single underscores between
    digits; more than [max_str_digits] digits raise [ValueError]
    (the default limit of CPython's [int] since 3.11). *)

Definition is_py_space (c : ascii) : bool :=
  let n := nat_of_ascii c in
  (((9 <=? n) && (n <=? 13)) || (n =? 32))%nat.

Definition digit_value (c : ascii) : option Z :=
  let n := nat_of_ascii c in
  if ((48 <=? n) && (n <=? 57))%nat then Some (Z.of_nat n - 48)%Z else None.

Fixpoint drop_space (l : list ascii) : list ascii :=
  match l with
  | c :: r => if is_py_space c then drop_space r else l
  | [] => []
  end.

Definition py_strip (l : list ascii) : list ascii :=
  rev (drop_space (rev (drop_space l))).

(** [after_digit] is true when the previous character was a digit;
    an underscore must sit between two digits. *)
Fixpoint parse_digits (acc : Z) (after_digit : bool) (l : list ascii)
  : option Z :=
  match l with
  | [] => if after_digit then Some acc else None
  | c :: r =>
      match digit_value c with
      | Some d => parse_digits (acc * 10 + d)%Z true r
      | None =>
          if Ascii.eqb c "_"%char && after_digit
          then parse_digits acc false r
          else None
      end
  end.

Definition max_str_digits : nat := 4300.

Fixpoint digit_count (l : list ascii) : nat :=
  match l with
  | c :: r =>
      match digit_value c with
      | Some _ => S (digit_count r)
      | None => digit_count r
      end
  | [] => O
  end.

Definition parse_signed (l : list ascii) : option Z :=
  match l with
  | "-"%char :: r => option_map Z.opp (parse_digits 0 false r)
  | "+"%char :: r => parse_digits 0 false r
  | l => parse_digits 0 false l
  end.

Definition py_int (s : string) : option Z :=
  let l := py_strip (list_ascii_of_string s) in
  if Nat.ltb max_str_digits (digit_count l) then None else parse_signed l.

(** ** Collaborators

    The chat model is an oracle: each node's call is answered by a
    function of what the node sends to it. *)

Record ai_response := mk_ai_response {
  resp_content : string;
  resp_tool_calls : list tool_call;
  resp_id : option string
}.

Definition response_message (r : ai_response) : message :=
  mk_message AIMsg (resp_content r) (resp_tool_calls r) (resp_id r) None.

Record env := mk_env {
  llm_router : list message -> string;
  llm_reschedule_or_cancel : list message -> string;
  llm_appointment : list Appointment -> list message -> string;
  llm_agent : list message -> ai_response;
  run_tool : tool_call -> string
}.

(** ** Node functions of graph.py *)

Section Nodes.

Variable E : env.

(** [router] (lines 21-33): [int(response.content)], no range check. *)
Definition router (s : State) : result Update :=
  match py_int (llm_router E (messages s)) with
  | Some stage => Ok (mk_update [] (Some stage) None None None)
  | None => Err ValueError
  end.

(** [determine_reschedule_or_cancel] (lines 35-49). *)
Definition determine_reschedule_or_cancel (s : State) : result Update :=
  match py_int (llm_reschedule_or_cancel E (messages s)) with
  | Some d => Ok (mk_update [] None (Some d) None None)
  | None => Err ValueError
  end.

(** [reschedule_message_node] (lines 51-58). *)
Definition reschedule_message_node (s : State) : result Update :=
  Ok (messages_update
        [AIMessage "Let me escalate this with a real person." None]).

(** [get_appointments_node] (lines 61-77). *)
Definition get_appointments_node (s : State) : result Update :=
  let appts := get_appointments in
  Ok (mk_update [] None None (Some appts) None).

(** [suggest_reschedule_node] (lines 80-98). *)
Definition suggest_reschedule_node (s : State) : result Update :=
  Ok (messages_update
        [AIMessage "I would love to cancel the appointment but would you like to reschedule instead?" None]).

(** [determine_appointment_to_cancel] (lines 100-135): the prompt is
    built from the appointments and the messages. *)
Definition determine_appointment_to_cancel (s : State) : result Update :=
  match py_int (llm_appointment E (appointments s) (messages s)) with
  | Some i => Ok (mk_update [] None None None (Some i))
  | None => Err ValueError
  end.

(** [confirmation_message_node] (lines 138-148). *)
Definition confirmation_message_node (s : State) : result Update :=
  Ok (messages_update
        [AIMessage "I will cancel the appointment for you! Thank you!" None]).

Definition fallback_text : string :=
  "Sorry, I could not find an answer to your question in the specified number of steps.".

(** [call_model] (lines 151-195). *)
Definition call_model (s : State) : result Update :=
  let response := llm_agent E (messages s) in
  if is_last_step s && (match resp_tool_calls response with
                        | [] => false | _ => true end)
  then Ok (messages_update [AIMessage fallback_text (resp_id response)])
  else Ok (messages_update [response_message response]).

(** [ToolNode(TOOLS)] (langgraph.prebuilt): one tool message per tool
    call of the last AI message; tool failures come back as text. An
    empty history raises [ValueError] ("No message found in input"). *)
Definition tool_message (tc : tool_call) : message :=
  mk_message ToolMsg (run_tool E tc) [] None (Some (tc_id tc)).

Definition tools (s : State) : result Update :=
  match last (map Some (messages s)) None with
  | Some m =>
      if is_ai_message m
      then Ok (messages_update (map tool_message (tool_calls m)))
      else Err ValueError
  | None => Err ValueError
  end.

End Nodes.

(** ** State merge *)

(** Modelled from the spec: the reducer of [messages] (declared in
    react_agent/state.py, not in this source tree). New messages are
    appended; a new message whose identifier is already in the history
    replaces the message bearing that identifier (the last index per
    identifier, as a dict built over the history). *)
Fixpoint index_of_id (i : string) (l : list message) (k : nat)
  (found : option nat) : option nat :=
  match l with
  | [] => found
  | m :: r =>
      let found' := match msg_id m with
                    | Some j => if String.eqb i j then Some k else found
                    | None => found
                    end in
      index_of_id i r (S k) found'
  end.

Fixpoint replace_nth {A} (l : list A) (k : nat) (x : A) : list A :=
  match l, k with
  | [], _ => []
  | _ :: r, O => x :: r
  | y :: r, S k' => y :: replace_nth r k' x
  end.

Definition merge_one (left acc : list message) (m : message) : list message :=
  match msg_id m with
  | Some i =>
      match index_of_id i left 0 None with
      | Some k => replace_nth acc k m
      | None => acc ++ [m]
      end
  | None => acc ++ [m]
  end.

Definition add_messages (left right : list message) : list message :=
  fold_left (merge_one left) right left.

(** Modelled from the spec: every other state key is overwritten by the
    node's partial update when present. *)
Definition apply_update (s : State) (u : Update) : State :=
  mk_state
    (add_messages (messages s) (upd_messages u))
    (match upd_router_stage u with Some x => x | None => router_stage s end)
    (match upd_reschedule_or_cancel_decision u with
     | Some x => x | None => reschedule_or_cancel_decision s end)
    (match upd_appointments u with Some x => x | None => appointments s end)
    (match upd_appointment_id u with Some x => x | None => appointment_id s end)
    (is_last_step s).

(** ** The graph (lines 198-304) *)

Inductive node :=
  | N_router | N_call_model | N_tools | N_get_appointments_node
  | N_suggest_reschedule_node | N_determine_reschedule_or_cancel
  | N_determine_appointment_to_cancel | N_confirmation_message_node
  | N_reschedule_message_node | N_end.

Definition node_eqb (a b : node) : bool :=
  match a, b with
  | N_router, N_router | N_call_model, N_call_model | N_tools, N_tools
  | N_get_appointments_node, N_get_appointments_node
  | N_suggest_reschedule_node, N_suggest_reschedule_node
  | N_determine_reschedule_or_cancel, N_determine_reschedule_or_cancel
  | N_determine_appointment_to_cancel, N_determine_appointment_to_cancel
  | N_confirmation_message_node, N_confirmation_message_node
  | N_reschedule_message_node, N_reschedule_message_node
  | N_end, N_end => true
  | _, _ => false
  end.

(** [route_from_router] (lines 215-230). *)
Definition route_from_router (s : State) : node :=
  let stage := router_stage s in
  if Z.eqb stage 1 then N_get_appointments_node
  else if Z.eqb stage 2 then N_call_model
  else N_determine_reschedule_or_cancel.

(** [route_model_output] (lines 245-265): [state.messages[-1]]. *)
Definition route_model_output (s : State) : result node :=
  match last (map Some (messages s)) None with
  | None => Err IndexError
  | Some last_message =>
      if negb (is_ai_message last_message) then Err ValueError
      else match tool_calls last_message with
           | [] => Ok N_end
           | _ => Ok N_tools
           end
  end.

(** [route_after_reschedule_or_cancel] (lines 281-287). *)
Definition route_after_reschedule_or_cancel (s : State) : node :=
  if Z.eqb (reschedule_or_cancel_decision s) 2
  then N_determine_appointment_to_cancel
  else N_reschedule_message_node.

(** The edges of [builder], plain and conditional. *)
Definition next_node (n : node) (s : State) : result node :=
  match n with
  | N_router => Ok (route_from_router s)
  | N_get_appointments_node => Ok N_suggest_reschedule_node
  | N_determine_appointment_to_cancel => Ok N_confirmation_message_node
  | N_confirmation_message_node => Ok N_end
  | N_suggest_reschedule_node => Ok N_end
  | N_call_model => route_model_output s
  | N_tools => Ok N_call_model
  | N_reschedule_message_node => Ok N_end
  | N_determine_reschedule_or_cancel => Ok (route_after_reschedule_or_cancel s)
  | N_end => Ok N_end
  end.

Definition run_node (E : env) (n : node) (s : State) : result Update :=
  match n with
  | N_router => router E s
  | N_call_model => call_model E s
  | N_tools => tools E s
  | N_get_appointments_node => get_appointments_node s
  | N_suggest_reschedule_node => suggest_reschedule_node s
  | N_determine_reschedule_or_cancel => determine_reschedule_or_cancel E s
  | N_determine_appointment_to_cancel => determine_appointment_to_cancel E s
  | N_confirmation_message_node => confirmation_message_node s
  | N_reschedule_message_node => reschedule_message_node s
  | N_end => Ok (messages_update [])
  end.

(** The outcome of a run: the nodes executed, in order, and the final
    state or the error that aborted the run. *)
Inductive outcome :=
  | Finished (trace : list node) (s : State)
  | Failed (trace : list node) (e : py_error)
  | OutOfFuel (trace : list node).

Definition visited (n : node) (o : outcome) : outcome :=
  match o with
  | Finished t s => Finished (n :: t) s
  | Failed t e => Failed (n :: t) e
  | OutOfFuel t => OutOfFuel (n :: t)
  end.

Definition trace_of (o : outcome) : list node :=
  match o with Finished t _ | Failed t _ | OutOfFuel t => t end.

(** Modelled from the spec: the scheduler runs one node per step, sets
    [is_last_step] when the step budget [limit] is about to be exhausted
    and aborts the run once it is exhausted. *)
Fixpoint run (E : env) (fuel limit step : nat) (n : node) (s : State)
  : outcome :=
  match fuel with
  | O => OutOfFuel []
  | S fuel' =>
      match n with
      | N_end => Finished [] s
      | _ =>
          if Nat.leb limit step then Failed [] RecursionError else
          let s0 := mk_state (messages s) (router_stage s)
                      (reschedule_or_cancel_decision s) (appointments s)
                      (appointment_id s) (Nat.eqb (S step) limit) in
          match run_node E n s0 with
          | Err e => Failed [n] e
          | Ok u =>
              let s1 := apply_update s0 u in
              match next_node n s1 with
              | Err e => Failed [n] e
              | Ok n' => visited n (run E fuel' limit (S step) n' s1)
              end
          end
      end
  end.

(** Modelled from the spec: a run starts at [router]
    ([__start__ -> router]) with the input messages and no appointments;
    the other keys are written before they are read. *)
Definition initial_state (input : list message) : State :=
  mk_state input 0 0 [] (-1) false.

Definition invoke (E : env) (fuel limit : nat) (input : list message)
  : outcome :=
  run E fuel limit 0 N_router (initial_state input).

(** An identifier is fresh for a history when no message bears it. *)
Definition fresh_id (o : option string) (l : list message) : bool :=
  match o with
  | None => true
  | Some i => match index_of_id i l 0 None with None => true | Some _ => false end
  end.

(** ** Lemmas on the embedding *)

Open Scope list_scope.

Lemma last_some_app (l : list message) (m : message) :
  last (map Some (l ++ [m])) None = Some m.
Proof. rewrite map_app. simpl. apply last_last. Qed.

Lemma merge_fold_fresh (left ms acc : list message) :
  (forall m, In m ms -> fresh_id (msg_id m) left = true) ->
  fold_left (merge_one left) ms acc = acc ++ ms.
Proof.
  revert acc. induction ms as [|m ms IH]; intros acc Hf; simpl.
  - now rewrite app_nil_r.
  - assert (Hm : merge_one left acc m = acc ++ [m]).
    { unfold merge_one. specialize (Hf m (or_introl eq_refl)).
      unfold fresh_id in Hf. destruct (msg_id m) as [i|]; [|reflexivity].
      destruct (index_of_id i left 0 None); [discriminate|reflexivity]. }
    rewrite Hm, IH.
    + now rewrite <- app_assoc.
    + intros m' Hin. apply Hf. now right.
Qed.

Lemma add_messages_fresh (left ms : list message) :
  (forall m, In m ms -> fresh_id (msg_id m) left = true) ->
  add_messages left ms = left ++ ms.
Proof. apply merge_fold_fresh. Qed.

Lemma add_messages_anonymous (left : list message) (m : message) :
  msg_id m = None -> add_messages left [m] = left ++ [m].
Proof.
  intros H. apply add_messages_fresh. intros m' [<-|[]]. now rewrite H.
Qed.

(** ** Claims *)

(** C2: after the stage router, [route_from_router] selects
    [get_appointments_node] exactly when [router_stage] is 1, [call_model]
    exactly when it is 2, [determine_reschedule_or_cancel] for every other
    value, and no other node. *)
Theorem route_from_router_table (s : State) :
  (route_from_router s = N_get_appointments_node <-> router_stage s = 1%Z) /\
  (route_from_router s = N_call_model <-> router_stage s = 2%Z) /\
  (route_from_router s = N_determine_reschedule_or_cancel <->
     router_stage s <> 1%Z /\ router_stage s <> 2%Z) /\
  next_node N_router s = Ok (route_from_router s) /\
  (route_from_router s = N_get_appointments_node \/
   route_from_router s = N_call_model \/
   route_from_router s = N_determine_reschedule_or_cancel).
Proof.
  cbn [next_node]. unfold route_from_router.
  destruct (Z.eqb_spec (router_stage s) 1) as [H1|H1];
  [|destruct (Z.eqb_spec (router_stage s) 2) as [H2|H2]];
  repeat split; intros; try discriminate; try lia; auto.
Qed.

(** C6: when the last message is an AI response, [route_model_output]
    ends the run exactly when it carries no tool call and goes to [tools]
    exactly when it carries one; [tools] always goes back to
    [call_model]. *)
Theorem route_model_output_ai (s : State) (pre : list message)
  (m : message) (Hlast : messages s = pre ++ [m])
  (Hai : is_ai_message m = true) :
  (route_model_output s = Ok N_end <-> tool_calls m = []) /\
  (route_model_output s = Ok N_tools <-> tool_calls m <> []) /\
  next_node N_call_model s = route_model_output s /\
  (forall s', next_node N_tools s' = Ok N_call_model).
Proof.
  cbn [next_node]. unfold route_model_output.
  rewrite Hlast, last_some_app, Hai. simpl.
  destruct (tool_calls m) as [|tc tcs]; repeat split; intros;
    try discriminate; try congruence; auto.
Qed.

(** C10: when the last message is not an AI response,
    [route_model_output] raises [ValueError] instead of naming a node. *)
Theorem route_model_output_not_ai (s : State) (pre : list message)
  (m : message) (Hlast : messages s = pre ++ [m])
  (Hnot : is_ai_message m = false) :
  route_model_output s = Err ValueError.
Proof.
  unfold route_model_output. now rewrite Hlast, last_some_app, Hnot.
Qed.

(** C8: each terminal message node returns one AI message with its fixed
    text and no other key; merged into any state it appends that message
    and leaves every other key as it was. *)
Theorem terminal_message_nodes (s : State) :
  let ends_with (u : result Update) (txt : string) :=
    u = Ok (messages_update [AIMessage txt None]) /\
    apply_update s (messages_update [AIMessage txt None]) =
      mk_state (messages s ++ [AIMessage txt None]) (router_stage s)
        (reschedule_or_cancel_decision s) (appointments s)
        (appointment_id s) (is_last_step s) in
  ends_with (reschedule_message_node s)
    "Let me escalate this with a real person." /\
  ends_with (suggest_reschedule_node s)
    "I would love to cancel the appointment but would you like to reschedule instead?" /\
  ends_with (confirmation_message_node s)
    "I will cancel the appointment for you! Thank you!".
Proof.
  intros ends_with. unfold ends_with, apply_update; simpl.
  rewrite !add_messages_anonymous by reflexivity.
  repeat split.
Qed.

(** C5: [get_appointments_node] stores the list returned by
    [get_appointments] as it is: same records, same order; on the fixture
    these are the appointments 1 and 2, in that order. *)
Theorem get_appointments_node_verbatim (s : State) :
  get_appointments_node s =
    Ok (mk_update [] None None (Some get_appointments) None) /\
  appointments (apply_update s (mk_update [] None None (Some get_appointments) None))
    = get_appointments /\
  messages (apply_update s (mk_update [] None None (Some get_appointments) None))
    = messages s /\
  get_appointments =
    [ mk_appointment 1 "2025-01-01 10:00:00" "Home cleaning service";
      mk_appointment 2 "2025-01-05 14:00:00" "Plumbing repair" ] /\
  map ap_id get_appointments = [1%Z; 2%Z].
Proof. repeat split. Qed.

(** C1: on the last step, when the model still asks for a tool,
    [call_model] returns only the fixed fallback message with the
    response's identifier; the run then ends at once without running
    [tools]. *)
Theorem call_model_budget_exhausted (E : env) (fuel limit step : nat)
  (s : State)
  (Hlast : is_last_step s = true)
  (Hbudget : S step = limit)
  (Htools : resp_tool_calls (llm_agent E (messages s)) <> [])
  (Hfresh : fresh_id (resp_id (llm_agent E (messages s))) (messages s) = true) :
  call_model E s =
    Ok (messages_update
          [AIMessage fallback_text (resp_id (llm_agent E (messages s)))]) /\
  run E (S (S fuel)) limit step N_call_model s =
    Finished [N_call_model]
      (mk_state
         (messages s ++
            [AIMessage fallback_text (resp_id (llm_agent E (messages s)))])
         (router_stage s) (reschedule_or_cancel_decision s) (appointments s)
         (appointment_id s) true).
Proof.
  destruct s as [ms rs d ap aid last]; simpl in *; subst last limit.
  assert (Hleb : Nat.leb (S step) step = false) by (apply Nat.leb_gt; lia).
  assert (Hcm : call_model E (mk_state ms rs d ap aid true) =
    Ok (messages_update [AIMessage fallback_text (resp_id (llm_agent E ms))])).
  { unfold call_model; simpl. destruct (resp_tool_calls (llm_agent E ms));
      [congruence|reflexivity]. }
  split; [exact Hcm|].
  cbn [run]. rewrite Hleb, Nat.eqb_refl. cbn [run_node]. rewrite Hcm.
  cbn [next_node].
  assert (Happ : apply_update (mk_state ms rs d ap aid true)
      (messages_update [AIMessage fallback_text (resp_id (llm_agent E ms))]) =
    mk_state (ms ++ [AIMessage fallback_text (resp_id (llm_agent E ms))])
      rs d ap aid true).
  { unfold apply_update; simpl.
    rewrite add_messages_fresh by (intros m [<-|[]]; exact Hfresh).
    reflexivity. }
  rewrite Happ. unfold route_model_output. cbn [messages].
  rewrite last_some_app. reflexivity.
Qed.

(** Every message a node emits is anonymous or carries the identifier of
    the model's response. *)
Lemma node_message_ids (E : env) (n : node) (s : State) (u : Update) :
  run_node E n s = Ok u ->
  forall m, In m (upd_messages u) ->
    msg_id m = None \/ msg_id m = resp_id (llm_agent E (messages s)).
Proof.
  intros Hrun m Hin.
  destruct n; simpl in Hrun;
    unfold router, determine_reschedule_or_cancel,
      determine_appointment_to_cancel, call_model, tools in Hrun.
  - destruct (py_int _); inversion Hrun; subst; destruct Hin.
  - destruct (_ && _); inversion Hrun; subst; simpl in Hin;
      destruct Hin as [<-|[]]; simpl; auto.
  - destruct (last _ _) as [m'|]; [|discriminate].
    destruct (is_ai_message m'); inversion Hrun; subst; simpl in Hin.
    apply in_map_iff in Hin. destruct Hin as [tc [<- _]]. now left.
  - inversion Hrun; subst; destruct Hin.
  - inversion Hrun; subst; destruct Hin as [<-|[]]; now left.
  - destruct (py_int _); inversion Hrun; subst; destruct Hin.
  - destruct (py_int _); inversion Hrun; subst; destruct Hin.
  - inversion Hrun; subst; destruct Hin as [<-|[]]; now left.
  - inversion Hrun; subst; destruct Hin as [<-|[]]; now left.
  - inversion Hrun; subst; destruct Hin.
Qed.

(** C9: with the model's response identifier fresh for the history,
    every node's update keeps the existing messages as an unchanged
    prefix; in the step-budget case the update carries the fallback
    message, with the response's identifier, in place of the response. *)
Theorem messages_append_only (E : env) (n : node) (s : State) (u : Update)
  (Hrun : run_node E n s = Ok u)
  (Hfresh : fresh_id (resp_id (llm_agent E (messages s))) (messages s) = true) :
  messages (apply_update s u) = messages s ++ upd_messages u /\
  (n = N_call_model -> is_last_step s = true ->
   resp_tool_calls (llm_agent E (messages s)) <> [] ->
   upd_messages u =
     [AIMessage fallback_text (resp_id (llm_agent E (messages s)))]).
Proof.
  split.
  - unfold apply_update. cbn [messages]. apply add_messages_fresh.
    intros m Hin. destruct (node_message_ids E n s u Hrun m Hin) as [H|H];
      rewrite H; [reflexivity|exact Hfresh].
  - intros -> Hlast Htc. simpl in Hrun. unfold call_model in Hrun.
    rewrite Hlast in Hrun.
    destruct (resp_tool_calls (llm_agent E (messages s))); [congruence|].
    now inversion Hrun.
Qed.

(** ** Concrete runs *)

Definition cancel_input : list message :=
  [mk_message HumanMsg "I want to cancel my appointment" [] None None].

(** A model that answers stage 3, then "cancel", then the sentinel -1. *)
Definition unresolved_env : env :=
  mk_env (fun _ => "3") (fun _ => "2") (fun _ _ => "-1")
    (fun _ => mk_ai_response "" [] None) (fun _ => "").

(** C3 (counterexample): a run in which the selection classifier yields
    the sentinel -1 still reaches [confirmation_message_node]. *)
Lemma confirmation_fires_on_unresolved_id :
  ~ (forall (E : env) (fuel limit : nat) (input : list message)
        (t : list node) (s : State),
       invoke E fuel limit input = Finished t s ->
       appointment_id s = (-1)%Z ->
       ~ In N_confirmation_message_node t).
Proof.
  intros H.
  eapply (H unresolved_env 10 25 cancel_input);
    [vm_compute; reflexivity | reflexivity | simpl; tauto].
Qed.

(** C3 (amended): after the appointment-selection classifier, the run
    goes on to [confirmation_message_node] whatever id was selected, -1
    included: the confirmation message is appended and the run ends. *)
Theorem confirmation_after_selection (E : env) (fuel limit step : nat)
  (s : State) (i : Z)
  (Hbudget : step + 2 <= limit)
  (Hi : py_int (llm_appointment E (appointments s) (messages s)) = Some i) :
  run E (S (S (S fuel))) limit step N_determine_appointment_to_cancel s =
    Finished [N_determine_appointment_to_cancel; N_confirmation_message_node]
      (mk_state
         (messages s ++
            [AIMessage "I will cancel the appointment for you! Thank you!" None])
         (router_stage s) (reschedule_or_cancel_decision s) (appointments s)
         i (Nat.eqb (S (S step)) limit)).
Proof.
  assert (H1 : Nat.leb limit step = false) by (apply Nat.leb_gt; lia).
  assert (H2 : Nat.leb limit (S step) = false) by (apply Nat.leb_gt; lia).
  cbn [run]. rewrite H1. cbn [run_node]. unfold determine_appointment_to_cancel.
  cbn [messages appointments]. rewrite Hi. cbn [next_node run]. rewrite H2.
  cbn [run_node]. unfold confirmation_message_node, apply_update. simpl.
  rewrite add_messages_anonymous by reflexivity. reflexivity.
Qed.

Definition four_env : env :=
  mk_env (fun _ => "4") (fun _ => "1") (fun _ _ => "1")
    (fun _ => mk_ai_response "" [] None) (fun _ => "").

(** C4 (counterexample): the stage router accepts the reply "4", which
    is outside {1,2,3}, and writes 4 to [router_stage]. *)
Lemma router_accepts_out_of_range :
  ~ (forall (E : env) (s : State),
       (exists e, router E s = Err e) <->
       ~ (exists n, py_int (llm_router E (messages s)) = Some n /\
                    (1 <= n <= 3)%Z)).
Proof.
  intros H. destruct (H four_env (initial_state cancel_input)) as [_ H2].
  destruct H2 as [e He].
  - intros [n [Hn Hr]]. vm_compute in Hn. injection Hn as <-. lia.
  - vm_compute in He. discriminate.
Qed.

(** C7: [route_after_reschedule_or_cancel] selects the appointment
    selection classifier exactly when the decision is 2 and the
    escalation message otherwise; when the classifier's decision is not
    2, the run never reaches [determine_appointment_to_cancel]. *)
Theorem reschedule_branch_escalates (E : env) (fuel limit step : nat)
  (s : State) (d : Z)
  (Hd : py_int (llm_reschedule_or_cancel E (messages s)) = Some d)
  (Hne : d <> 2%Z) :
  (forall s', route_after_reschedule_or_cancel s' =
                N_determine_appointment_to_cancel <->
              reschedule_or_cancel_decision s' = 2%Z) /\
  (forall s', reschedule_or_cancel_decision s' <> 2%Z ->
              route_after_reschedule_or_cancel s' = N_reschedule_message_node) /\
  ~ In N_determine_appointment_to_cancel
      (trace_of (run E fuel limit step N_determine_reschedule_or_cancel s)).
Proof.
  split; [|split].
  - intros s'. unfold route_after_reschedule_or_cancel.
    destruct (Z.eqb_spec (reschedule_or_cancel_decision s') 2);
      split; intros; congruence.
  - intros s' H. unfold route_after_reschedule_or_cancel.
    destruct (Z.eqb_spec (reschedule_or_cancel_decision s') 2); congruence.
  - destruct fuel as [|fuel]; [simpl; tauto|]. cbn [run].
    destruct (Nat.leb limit step); [simpl; tauto|].
    cbn [run_node]. unfold determine_reschedule_or_cancel. cbn [messages].
    rewrite Hd. cbn [next_node]. unfold route_after_reschedule_or_cancel.
    cbn [apply_update reschedule_or_cancel_decision
         upd_reschedule_or_cancel_decision].
    destruct (Z.eqb_spec d 2) as [|_]; [contradiction|].
    destruct fuel as [|fuel]; [simpl; intuition discriminate|]. cbn [run].
    destruct (Nat.leb limit (S step)); [simpl; intuition discriminate|].
    cbn [run_node next_node].
    destruct fuel as [|fuel]; simpl; intuition discriminate.
Qed.

(** ** Witnesses *)

Definition budget_env : env :=
  mk_env (fun _ => "2") (fun _ => "1") (fun _ _ => "1")
    (fun _ => mk_ai_response "" [mk_tool_call "search" "{}" "call_1"]
                (Some "run-1"))
    (fun _ => "result").

Definition last_step_state : State :=
  mk_state cancel_input 2 0 [] (-1) true.

Lemma call_model_budget_exhausted_witness :
  is_last_step last_step_state = true /\
  resp_tool_calls (llm_agent budget_env (messages last_step_state)) <> [] /\
  run budget_env 2 1 0 N_call_model last_step_state =
    Finished [N_call_model]
      (mk_state
         (cancel_input ++ [AIMessage fallback_text (Some "run-1")])
         2 0 [] (-1) true).
Proof.
  split; [reflexivity|]. split; [discriminate|].
  exact (proj2 (call_model_budget_exhausted budget_env 0 1 0 last_step_state
                  eq_refl eq_refl ltac:(discriminate) eq_refl)).
Defined.

Lemma messages_append_only_witness :
  messages (apply_update last_step_state
              (messages_update [AIMessage fallback_text (Some "run-1")])) =
    cancel_input ++ [AIMessage fallback_text (Some "run-1")].
Proof.
  exact (proj1 (messages_append_only budget_env N_call_model last_step_state
                  (messages_update [AIMessage fallback_text (Some "run-1")])
                  eq_refl eq_refl)).
Defined.

Lemma confirmation_after_selection_witness :
  run unresolved_env 3 25 3 N_determine_appointment_to_cancel
      (mk_state cancel_input 3 2 get_appointments (-1) false) =
    Finished [N_determine_appointment_to_cancel; N_confirmation_message_node]
      (mk_state
         (cancel_input ++
            [AIMessage "I will cancel the appointment for you! Thank you!" None])
         3 2 get_appointments (-1) false).
Proof.
  exact (confirmation_after_selection unresolved_env 0 25 3
           (mk_state cancel_input 3 2 get_appointments (-1) false) (-1)
           ltac:(lia) ltac:(vm_compute; reflexivity)).
Defined.

Definition reschedule_env : env :=
  mk_env (fun _ => "3") (fun _ => "1") (fun _ _ => "2")
    (fun _ => mk_ai_response "" [] None) (fun _ => "").

Lemma reschedule_branch_escalates_witness :
  ~ In N_determine_appointment_to_cancel
      (trace_of (run reschedule_env 5 25 1 N_determine_reschedule_or_cancel
                   (mk_state cancel_input 3 0 [] (-1) false))).
Proof.
  exact (proj2 (proj2 (reschedule_branch_escalates reschedule_env 5 25 1
           (mk_state cancel_input 3 0 [] (-1) false) 1
           ltac:(vm_compute; reflexivity) ltac:(discriminate)))).
Defined.

Lemma route_model_output_ai_witness :
  route_model_output (mk_state (cancel_input ++ [AIMessage "done" None])
                        2 0 [] (-1) false) = Ok N_end.
Proof.
  exact (proj2 (proj1 (route_model_output_ai
           (mk_state (cancel_input ++ [AIMessage "done" None]) 2 0 [] (-1) false)
           cancel_input (AIMessage "done" None) eq_refl eq_refl)) eq_refl).
Defined.

Lemma route_model_output_not_ai_witness :
  route_model_output (mk_state (cancel_input ++ [tool_message budget_env
                                   (mk_tool_call "search" "{}" "call_1")])
                        2 0 [] (-1) false) = Err ValueError.
Proof.
  exact (route_model_output_not_ai
           (mk_state (cancel_input ++ [tool_message budget_env
                                        (mk_tool_call "search" "{}" "call_1")])
              2 0 [] (-1) false)
           cancel_input _ eq_refl eq_refl).
Defined.

(** ** Integer replies of the classifiers *)

Definition digit_char (d : nat) : ascii := ascii_of_nat (48 + d).

(** The decimal digits of [n] put in front of [acc] (Python [str] of a
    non-negative [int]); [fuel] bounds the number of digits. *)
Fixpoint nat_digits (fuel n : nat) (acc : list ascii) : list ascii :=
  match fuel with
  | O => acc
  | S fuel' =>
      let acc' := digit_char (n mod 10) :: acc in
      if Nat.ltb n 10 then acc' else nat_digits fuel' (n / 10) acc'
  end.

(** Python [str(n)] for an [int]. *)
Definition py_str (n : Z) : string :=
  let m := Z.to_nat (Z.abs n) in
  string_of_list_ascii
    (if Z.ltb n 0 then "-"%char :: nat_digits (S m) m [] else nat_digits (S m) m []).

Lemma digit_value_digit_char (d : nat) :
  d < 10 -> digit_value (digit_char d) = Some (Z.of_nat d).
Proof.
  intros Hd. unfold digit_value, digit_char.
  rewrite nat_ascii_embedding by lia.
  replace ((48 <=? 48 + d) && (48 + d <=? 57))%nat with true
    by (symmetry; apply andb_true_intro; split; apply Nat.leb_le; lia).
  f_equal. lia.
Qed.

Lemma digit_char_not_space (d : nat) :
  d < 10 -> is_py_space (digit_char d) = false.
Proof.
  intros Hd. unfold is_py_space, digit_char.
  rewrite nat_ascii_embedding by lia.
  apply orb_false_intro; [apply andb_false_intro2; apply Nat.leb_gt|apply Nat.eqb_neq]; lia.
Qed.

Lemma nat_digits_step (fuel n : nat) (acc : list ascii) :
  nat_digits (S fuel) n acc =
  if Nat.ltb n 10 then digit_char (n mod 10) :: acc
  else nat_digits fuel (n / 10) (digit_char (n mod 10) :: acc).
Proof. reflexivity. Qed.

Lemma parse_nat_digits (fuel n : nat) (l : list ascii) :
  n < 10 ^ S fuel ->
  parse_digits 0 false (nat_digits (S fuel) n l) =
  parse_digits (Z.of_nat n) true l.
Proof.
  revert n l. induction fuel as [|fuel IH]; intros n l Hn;
    rewrite nat_digits_step; assert (Hm : n mod 10 < 10) by (apply Nat.mod_upper_bound; lia);
    destruct (Nat.ltb_spec n 10) as [Hlt|Hge].
  - cbn [parse_digits]. rewrite digit_value_digit_char by exact Hm.
    rewrite Nat.mod_small by exact Hlt. f_equal; lia.
  - simpl in Hn. lia.
  - cbn [parse_digits]. rewrite digit_value_digit_char by exact Hm.
    rewrite Nat.mod_small by exact Hlt. f_equal; lia.
  - rewrite IH.
    + cbn [parse_digits]. rewrite digit_value_digit_char by exact Hm.
      f_equal. rewrite (Nat.div_mod_eq n 10) at 3. lia.
    + apply Nat.Div0.div_lt_upper_bound. rewrite Nat.pow_succ_r' in Hn. lia.
Qed.

Lemma nat_digits_cons (fuel n : nat) (l : list ascii) :
  exists d r, nat_digits (S fuel) n l = digit_char d :: r /\ d < 10.
Proof.
  revert n l. induction fuel as [|fuel IH]; intros n l; cbn [nat_digits].
  - destruct (Nat.ltb n 10); eexists _, _; split; try reflexivity;
      apply Nat.mod_upper_bound; lia.
  - destruct (Nat.ltb n 10).
    + eexists _, _; split; [reflexivity|]. apply Nat.mod_upper_bound; lia.
    + apply IH.
Qed.

Lemma nat_digits_not_space (fuel n : nat) (l : list ascii) :
  Forall (fun c => is_py_space c = false) l ->
  Forall (fun c => is_py_space c = false) (nat_digits fuel n l).
Proof.
  revert n l. induction fuel as [|fuel IH]; intros n l Hl; cbn [nat_digits];
    [exact Hl|].
  assert (Hc : is_py_space (digit_char (n mod 10)) = false)
    by (apply digit_char_not_space, Nat.mod_upper_bound; lia).
  destruct (Nat.ltb n 10); [constructor; assumption|].
  apply IH. constructor; assumption.
Qed.

Lemma drop_space_spaces (w l : list ascii) :
  Forall (fun c => is_py_space c = true) w ->
  drop_space (w ++ l) = drop_space l.
Proof.
  induction 1 as [|c w Hc _ IH]; [reflexivity|]. simpl. now rewrite Hc.
Qed.

Lemma drop_space_solid (l : list ascii) :
  Forall (fun c => is_py_space c = false) l -> drop_space l = l.
Proof. destruct 1 as [|c r Hc _]; [reflexivity|]. simpl. now rewrite Hc. Qed.

Lemma drop_space_head (c : ascii) (r : list ascii) :
  is_py_space c = false -> drop_space (c :: r) = c :: r.
Proof. intros H. simpl. now rewrite H. Qed.

Lemma py_strip_padded (w1 l w2 : list ascii) :
  Forall (fun c => is_py_space c = true) w1 ->
  Forall (fun c => is_py_space c = true) w2 ->
  Forall (fun c => is_py_space c = false) l -> l <> [] ->
  py_strip (w1 ++ l ++ w2) = l.
Proof.
  intros H1 H2 Hl Hne. unfold py_strip.
  rewrite drop_space_spaces by exact H1.
  destruct l as [|c r]; [congruence|].
  inversion Hl as [|c' r' Hc Hr]; subst.
  rewrite <- app_comm_cons, drop_space_head by exact Hc.
  rewrite app_comm_cons, rev_app_distr, drop_space_spaces
    by (now apply Forall_rev).
  destruct (exists_last (l := c :: r) ltac:(discriminate)) as [hd [tl Heq]].
  rewrite Heq, rev_app_distr. cbn [rev app].
  rewrite drop_space_head.
  - change (tl :: rev hd) with ([tl] ++ rev hd).
    now rewrite rev_app_distr, rev_involutive.
  - rewrite Heq in Hl. apply Forall_app in Hl. destruct Hl as [_ Hl].
    now inversion Hl.
Qed.

Lemma sign_match_digit (d : nat) (r : list ascii) :
  d < 10 ->
  parse_signed (digit_char d :: r) = parse_digits 0 false (digit_char d :: r).
Proof.
  intros Hd. do 10 (destruct d as [|d]; [reflexivity|]). lia.
Qed.

Lemma lt_pow10 (m : nat) : m < 10 ^ S m.
Proof.
  pose proof (Nat.pow_gt_lin_r 10 (S m) ltac:(lia)). lia.
Qed.

(** A number below [10 ^ (k + 1)] has at most [k + 1] decimal digits. *)
Lemma digit_count_nat_digits (fuel n k : nat) (l : list ascii) :
  (Z.of_nat n < 10 ^ Z.of_nat (S k))%Z ->
  digit_count (nat_digits (S fuel) n l) <= S k + digit_count l.
Proof.
  revert n k l. induction fuel as [|fuel IH]; intros n k l Hn;
    rewrite nat_digits_step; assert (Hm : n mod 10 < 10) by (apply Nat.mod_upper_bound; lia);
    destruct (Nat.ltb_spec n 10) as [Hlt|Hge].
  - cbn [digit_count]. rewrite digit_value_digit_char by exact Hm. lia.
  - cbn [nat_digits digit_count]. rewrite digit_value_digit_char by exact Hm. lia.
  - cbn [digit_count]. rewrite digit_value_digit_char by exact Hm. lia.
  - destruct k as [|k].
    + simpl in Hn. lia.
    + eapply Nat.le_trans; [apply IH|].
      * rewrite Nat2Z.inj_div.
        apply Z.div_lt_upper_bound; [lia|].
        rewrite Nat2Z.inj_succ, Z.pow_succ_r in Hn by lia. exact Hn.
      * cbn [digit_count]. rewrite digit_value_digit_char by exact Hm. lia.
Qed.

(** Python's [int] reads back what [str] writes, around any whitespace,
    for every integer of at most [max_str_digits] digits. *)
Lemma py_int_py_str (n : Z) (w1 w2 : list ascii) :
  (Z.abs n < 10 ^ 4300)%Z ->
  Forall (fun c => is_py_space c = true) w1 ->
  Forall (fun c => is_py_space c = true) w2 ->
  py_int (string_of_list_ascii (w1 ++ list_ascii_of_string (py_str n) ++ w2))
    = Some n.
Proof.
  intros Hn H1 H2. unfold py_int, py_str. cbv zeta.
  rewrite !list_ascii_of_string_of_list_ascii.
  set (m := Z.to_nat (Z.abs n)).
  assert (Hcount : digit_count (nat_digits (S m) m []) <= max_str_digits).
  { assert (Hm : (Z.of_nat m < 10 ^ Z.of_nat (S 4299))%Z)
      by (unfold m; rewrite Z2Nat.id by apply Z.abs_nonneg; exact Hn).
    pose proof (digit_count_nat_digits m m 4299 [] Hm) as Hc.
    clear Hn Hm. unfold max_str_digits. cbn [digit_count] in Hc. lia. }
  apply Nat.ltb_ge in Hcount.
  assert (Hsolid : Forall (fun c => is_py_space c = false) (nat_digits (S m) m []))
    by (apply nat_digits_not_space; constructor).
  assert (Hparse : parse_digits 0 false (nat_digits (S m) m []) = Some (Z.of_nat m))
    by (rewrite parse_nat_digits by apply lt_pow10; reflexivity).
  destruct (nat_digits_cons m m []) as [d [r [Heq Hd]]].
  destruct (Z.ltb_spec n 0) as [Hneg|Hnn].
  - rewrite py_strip_padded; try assumption; [|constructor; [reflexivity|assumption]|discriminate].
    change (digit_count ("-"%char :: nat_digits (S m) m []))
      with (digit_count (nat_digits (S m) m [])).
    rewrite Hcount.
    change (option_map Z.opp (parse_digits 0 false (nat_digits (S m) m [])) = Some n).
    rewrite Hparse. simpl. f_equal. unfold m. rewrite Z2Nat.id by lia. lia.
  - rewrite py_strip_padded; try assumption; [|rewrite Heq; discriminate].
    rewrite Hcount, Heq, sign_match_digit, <- Heq, Hparse by exact Hd.
    f_equal. unfold m. rewrite Z2Nat.id by lia. lia.
Qed.

(** ** Further properties of the graph *)

Definition padded_reply (w1 : list ascii) (n : Z) (w2 : list ascii) : string :=
  string_of_list_ascii (w1 ++ list_ascii_of_string (py_str n) ++ w2).

(** Every integer a classifier writes as [str(n)], with any surrounding
    whitespace, is accepted by the node that parses it and stored as is,
    up to [int]'s limit of 4300 digits: [router],
    [determine_reschedule_or_cancel] and [determine_appointment_to_cancel]
    check no range. *)
Theorem classifier_nodes_accept_any_int (E : env) (s : State) (n : Z)
  (w1 w2 : list ascii) (Hn : (Z.abs n < 10 ^ 4300)%Z)
  (Hw1 : Forall (fun c => is_py_space c = true) w1)
  (Hw2 : Forall (fun c => is_py_space c = true) w2) :
  (llm_router E (messages s) = padded_reply w1 n w2 ->
   router E s = Ok (mk_update [] (Some n) None None None)) /\
  (llm_reschedule_or_cancel E (messages s) = padded_reply w1 n w2 ->
   determine_reschedule_or_cancel E s = Ok (mk_update [] None (Some n) None None)) /\
  (llm_appointment E (appointments s) (messages s) = padded_reply w1 n w2 ->
   determine_appointment_to_cancel E s = Ok (mk_update [] None None None (Some n))).
Proof.
  pose proof (py_int_py_str n w1 w2 Hn Hw1 Hw2) as Hp. clear Hn. fold (padded_reply w1 n w2) in Hp.
  unfold router, determine_reschedule_or_cancel, determine_appointment_to_cancel.
  repeat split; intros Hr; now rewrite Hr, Hp.
Qed.

(** A classifier reply that is not an integer aborts the run with
    [ValueError] at the node that parses it; nothing is appended and no
    later node runs. *)
Theorem classifier_failure_aborts (E : env) (fuel limit step : nat)
  (s : State) (Hbudget : step < limit) :
  (py_int (llm_router E (messages s)) = None ->
   run E (S fuel) limit step N_router s = Failed [N_router] ValueError) /\
  (py_int (llm_reschedule_or_cancel E (messages s)) = None ->
   run E (S fuel) limit step N_determine_reschedule_or_cancel s =
     Failed [N_determine_reschedule_or_cancel] ValueError) /\
  (py_int (llm_appointment E (appointments s) (messages s)) = None ->
   run E (S fuel) limit step N_determine_appointment_to_cancel s =
     Failed [N_determine_appointment_to_cancel] ValueError).
Proof.
  assert (Hleb : Nat.leb limit step = false) by (apply Nat.leb_gt; lia).
  repeat split; intros Hn; cbn [run]; rewrite Hleb; cbn [run_node];
    unfold router, determine_reschedule_or_cancel, determine_appointment_to_cancel;
    cbn [messages appointments]; now rewrite Hn.
Qed.

Definition suggest_text : string :=
  "I would love to cancel the appointment but would you like to reschedule instead?".
Definition escalate_text : string := "Let me escalate this with a real person.".
Definition confirm_text : string :=
  "I will cancel the appointment for you! Thank you!".

Definition with_last_step (s : State) (b : bool) : State :=
  mk_state (messages s) (router_stage s) (reschedule_or_cancel_decision s)
    (appointments s) (appointment_id s) b.

(** One step of [run] at a node other than [N_end], within the budget. *)
Lemma run_step_ok (E : env) (fuel limit step : nat) (n n' : node)
  (s : State) (u : Update) :
  n <> N_end -> step < limit ->
  run_node E n (with_last_step s (Nat.eqb (S step) limit)) = Ok u ->
  next_node n (apply_update (with_last_step s (Nat.eqb (S step) limit)) u) = Ok n' ->
  run E (S fuel) limit step n s =
    visited n (run E fuel limit (S step) n'
                 (apply_update (with_last_step s (Nat.eqb (S step) limit)) u)).
Proof.
  intros Hn Hlt Hu Hnext.
  assert (Hleb : Nat.leb limit step = false) by (apply Nat.leb_gt; lia).
  destruct n; [..|contradiction]; cbn [run]; rewrite Hleb;
    unfold with_last_step in Hu, Hnext; rewrite Hu, Hnext; reflexivity.
Qed.

Lemma run_end (E : env) (fuel limit step : nat) (s : State) :
  run E (S fuel) limit step N_end s = Finished [] s.
Proof. reflexivity. Qed.

(** C4 (amended): the stage router raises [ValueError], which aborts
    the run at the router, exactly when the reply is not a Python integer
    literal; every integer [str(n)] of at most 4300 digits, with any
    surrounding whitespace, is accepted; the parsed integer is written to
    [router_stage] whatever its value, with no range check, and a stage
    other than 1 and 2 (such as 4) sends the run on to the
    reschedule-or-cancel classifier. *)
Theorem router_parse_contract (E : env) (fuel limit step : nat) (s : State)
  (Hbudget : step < limit) :
  (router E s = Err ValueError <->
     py_int (llm_router E (messages s)) = None) /\
  (forall e, router E s = Err e -> e = ValueError) /\
  (py_int (llm_router E (messages s)) = None ->
     run E (S fuel) limit step N_router s = Failed [N_router] ValueError) /\
  (forall n w1 w2, (Z.abs n < 10 ^ 4300)%Z ->
     Forall (fun c => is_py_space c = true) w1 ->
     Forall (fun c => is_py_space c = true) w2 ->
     llm_router E (messages s) = padded_reply w1 n w2 ->
     router E s = Ok (mk_update [] (Some n) None None None)) /\
  (forall n, py_int (llm_router E (messages s)) = Some n ->
     router E s = Ok (mk_update [] (Some n) None None None) /\
     router_stage (apply_update s (mk_update [] (Some n) None None None)) = n /\
     (n <> 1%Z -> n <> 2%Z ->
      run E (S fuel) limit step N_router s =
        visited N_router
          (run E fuel limit (S step) N_determine_reschedule_or_cancel
             (apply_update (with_last_step s (Nat.eqb (S step) limit))
                (mk_update [] (Some n) None None None))))).
Proof.
  assert (Hleb : Nat.leb limit step = false) by (apply Nat.leb_gt; lia).
  split; [|split; [|split; [|split]]].
  - unfold router. destruct (py_int (llm_router E (messages s))).
    + split; discriminate.
    + split; reflexivity.
  - unfold router. destruct (py_int (llm_router E (messages s))).
    + discriminate.
    + congruence.
  - intros Hn. cbn [run]. rewrite Hleb. cbn [run_node]. unfold router.
    cbn [messages]. now rewrite Hn.
  - intros n w1 w2 Hn Hw1 Hw2 Hr. unfold router. rewrite Hr.
    unfold padded_reply. now rewrite py_int_py_str.
  - intros n Hn. split; [|split].
    + unfold router. now rewrite Hn.
    + reflexivity.
    + intros H1 H2. apply run_step_ok; [discriminate|exact Hbudget| |].
      * cbn [run_node]. unfold router, with_last_step. cbn [messages].
        now rewrite Hn.
      * cbn [next_node]. unfold route_from_router, apply_update.
        cbn [router_stage upd_router_stage].
        destruct (Z.eqb_spec n 1); [contradiction|].
        destruct (Z.eqb_spec n 2); [contradiction|reflexivity].
Qed.

(** Stage 1: the run is router, appointment fetch, reschedule suggestion,
    and ends with the fixture appointments stored and the suggestion
    appended. *)
Theorem stage1_run (E : env) (fuel limit : nat) (input : list message)
  (Hstage : py_int (llm_router E input) = Some 1%Z)
  (Hbudget : 3 <= limit) :
  invoke E (S (S (S (S fuel)))) limit input =
    Finished [N_router; N_get_appointments_node; N_suggest_reschedule_node]
      (mk_state (input ++ [AIMessage suggest_text None]) 1 0
         get_appointments (-1) (Nat.eqb 3 limit)).
Proof.
  unfold invoke, initial_state.
  rewrite (run_step_ok _ _ _ _ _ N_get_appointments_node _
             (mk_update [] (Some 1%Z) None None None));
    [|discriminate|lia|cbn [run_node]; unfold router; cbn [messages with_last_step]; now rewrite Hstage
     |reflexivity].
  rewrite (run_step_ok _ _ _ _ _ N_suggest_reschedule_node _
             (mk_update [] None None (Some get_appointments) None));
    [|discriminate|lia|reflexivity|reflexivity].
  rewrite (run_step_ok _ _ _ _ _ N_end _
             (messages_update [AIMessage suggest_text None]));
    [|discriminate|lia|reflexivity|reflexivity].
  rewrite run_end. unfold apply_update, with_last_step; cbn -[add_messages].
  rewrite add_messages_anonymous by reflexivity. reflexivity.
Qed.

(** Stage 3, reschedule: any stage other than 1 and 2 followed by a
    decision other than 2 runs router, the reschedule-or-cancel
    classifier and the escalation message, then ends. *)
Theorem stage3_escalation_run (E : env) (fuel limit : nat)
  (input : list message) (k d : Z)
  (Hstage : py_int (llm_router E input) = Some k)
  (Hk1 : k <> 1%Z) (Hk2 : k <> 2%Z)
  (Hd : py_int (llm_reschedule_or_cancel E input) = Some d) (Hd2 : d <> 2%Z)
  (Hbudget : 3 <= limit) :
  invoke E (S (S (S (S fuel)))) limit input =
    Finished [N_router; N_determine_reschedule_or_cancel;
              N_reschedule_message_node]
      (mk_state (input ++ [AIMessage escalate_text None]) k d [] (-1)
         (Nat.eqb 3 limit)).
Proof.
  unfold invoke, initial_state.
  rewrite (run_step_ok _ _ _ _ _ N_determine_reschedule_or_cancel _
             (mk_update [] (Some k) None None None));
    [|discriminate|lia|cbn [run_node]; unfold router; cbn [messages with_last_step]; now rewrite Hstage
     |cbn [next_node]; unfold route_from_router; cbn;
      destruct (Z.eqb_spec k 1); [contradiction|];
      destruct (Z.eqb_spec k 2); [contradiction|reflexivity]].
  rewrite (run_step_ok _ _ _ _ _ N_reschedule_message_node _
             (mk_update [] None (Some d) None None));
    [|discriminate|lia
     |cbn [run_node]; unfold determine_reschedule_or_cancel; cbn [messages with_last_step apply_update upd_messages];
      change (add_messages input []) with input; now rewrite Hd
     |cbn [next_node]; unfold route_after_reschedule_or_cancel; cbn;
      destruct (Z.eqb_spec d 2); [contradiction|reflexivity]].
  rewrite (run_step_ok _ _ _ _ _ N_end _
             (messages_update [AIMessage escalate_text None]));
    [|discriminate|lia|reflexivity|reflexivity].
  rewrite run_end. unfold apply_update, with_last_step; cbn -[add_messages].
  rewrite add_messages_anonymous by reflexivity. reflexivity.
Qed.

(** Stage 3, cancel: any stage other than 1 and 2 followed by the
    decision 2 runs router, the reschedule-or-cancel classifier, the
    appointment selection and the confirmation. The fetch node is not on
    this path, so the selection classifier is asked with an empty
    appointment list, and its id is stored whatever it is. *)
Theorem stage3_cancel_run (E : env) (fuel limit : nat)
  (input : list message) (k i : Z)
  (Hstage : py_int (llm_router E input) = Some k)
  (Hk1 : k <> 1%Z) (Hk2 : k <> 2%Z)
  (Hd : py_int (llm_reschedule_or_cancel E input) = Some 2%Z)
  (Hi : py_int (llm_appointment E [] input) = Some i)
  (Hbudget : 4 <= limit) :
  invoke E (S (S (S (S (S fuel))))) limit input =
    Finished [N_router; N_determine_reschedule_or_cancel;
              N_determine_appointment_to_cancel; N_confirmation_message_node]
      (mk_state (input ++ [AIMessage confirm_text None]) k 2 [] i
         (Nat.eqb 4 limit)).
Proof.
  unfold invoke, initial_state.
  rewrite (run_step_ok _ _ _ _ _ N_determine_reschedule_or_cancel _
             (mk_update [] (Some k) None None None));
    [|discriminate|lia|cbn [run_node]; unfold router; cbn [messages with_last_step]; now rewrite Hstage
     |cbn [next_node]; unfold route_from_router; cbn;
      destruct (Z.eqb_spec k 1); [contradiction|];
      destruct (Z.eqb_spec k 2); [contradiction|reflexivity]].
  rewrite (run_step_ok _ _ _ _ _ N_determine_appointment_to_cancel _
             (mk_update [] None (Some 2%Z) None None));
    [|discriminate|lia
     |cbn [run_node]; unfold determine_reschedule_or_cancel; cbn [messages with_last_step apply_update upd_messages];
      change (add_messages input []) with input; now rewrite Hd
     |reflexivity].
  rewrite (run_step_ok _ _ _ _ _ N_confirmation_message_node _
             (mk_update [] None None None (Some i)));
    [|discriminate|lia
     |cbn [run_node]; unfold determine_appointment_to_cancel;
      cbn [messages appointments with_last_step apply_update upd_messages
        upd_appointments];
      change (add_messages (add_messages input []) []) with input; now rewrite Hi
     |reflexivity].
  rewrite (run_step_ok _ _ _ _ _ N_end _
             (messages_update [AIMessage confirm_text None]));
    [|discriminate|lia|reflexivity|reflexivity].
  rewrite run_end. unfold apply_update, with_last_step; cbn -[add_messages].
  rewrite add_messages_anonymous by reflexivity. reflexivity.
Qed.

Lemma next_node_not_router (n n' : node) (s : State) :
  next_node n s = Ok n' -> n' <> N_router.
Proof.
  destruct n; cbn [next_node]; intros H; try (injection H as <-; discriminate).
  - unfold route_from_router in H.
    destruct (Z.eqb _ 1); [|destruct (Z.eqb _ 2)]; injection H as <-; discriminate.
  - unfold route_model_output in H. destruct (last _ _); [|discriminate].
    destruct (negb _); [discriminate|].
    destruct (tool_calls _); injection H as <-; discriminate.
  - unfold route_after_reschedule_or_cancel in H.
    destruct (Z.eqb _ 2); injection H as <-; discriminate.
Qed.

Lemma run_avoids_router (E : env) (fuel limit step : nat) (n : node)
  (s : State) :
  n <> N_router -> ~ In N_router (trace_of (run E fuel limit step n s)).
Proof.
  revert limit step n s. induction fuel as [|fuel IH]; intros limit step n s Hn;
    [simpl; tauto|].
  cbn [run]. destruct n; try (exfalso; apply Hn; reflexivity);
    try (simpl; tauto);
    destruct (Nat.leb limit step); try (simpl; tauto);
    destruct (run_node _ _ _) as [u|e]; try (simpl; intuition discriminate);
    destruct (next_node _ _) as [n'|e] eqn:Hnext; try (simpl; intuition discriminate);
    pose proof (next_node_not_router _ _ _ Hnext) as Hn';
    match goal with
    | |- context [run E fuel limit (S step) n' ?st] =>
        specialize (IH limit (S step) n' st Hn');
        unfold visited; destruct (run E fuel limit (S step) n' st)
    end;
    simpl; intros [H|H]; try discriminate; exact (IH H).
Qed.

(** The stage router runs at most once per run: no edge leads back to
    it, so it only ever heads the trace. *)
Theorem router_not_reentered (E : env) (fuel limit : nat)
  (input : list message) :
  ~ In N_router (tl (trace_of (invoke E fuel limit input))).
Proof.
  unfold invoke. destruct fuel as [|fuel]; [simpl; tauto|]. cbn [run].
  destruct (Nat.leb limit 0); [simpl; tauto|].
  destruct (run_node _ _ _) as [u|e]; [|simpl; tauto].
  destruct (next_node _ _) as [n'|e] eqn:Hnext; [|simpl; tauto].
  unfold visited.
  pose proof (run_avoids_router E fuel limit 1 n' (apply_update
    (mk_state input 0 0 [] (-1) (Nat.eqb 1 limit)) u)
    (next_node_not_router _ _ _ Hnext)) as H.
  destruct (run E fuel limit 1 n' _); exact H.
Qed.

Definition in_agent_loop (n : node) : Prop :=
  n = N_call_model \/ n = N_tools.

Lemma agent_loop_next (n n' : node) (s : State) :
  in_agent_loop n \/ n = N_end -> next_node n s = Ok n' ->
  in_agent_loop n' \/ n' = N_end.
Proof.
  intros [[->| ->]| ->]; cbn [next_node]; intros H.
  - unfold route_model_output in H. destruct (last _ _); [|discriminate].
    destruct (negb _); [discriminate|].
    destruct (tool_calls _); injection H as <-; unfold in_agent_loop; auto.
  - injection H as <-. left. now left.
  - injection H as <-. now right.
Qed.

Lemma run_agent_loop_confined (E : env) (fuel limit step : nat) (n : node)
  (s : State) :
  in_agent_loop n \/ n = N_end ->
  Forall in_agent_loop (trace_of (run E fuel limit step n s)).
Proof.
  revert limit step n s. induction fuel as [|fuel IH]; intros limit step n s Hn;
    [constructor|].
  assert (Hloop : in_agent_loop n \/ n = N_end) by exact Hn.
  destruct Hn as [[-> | ->] | ->]; [| |simpl; constructor];
    cbn [run]; destruct (Nat.leb limit step); try solve [simpl; constructor];
    (destruct (run_node _ _ _) as [u|e];
      [|simpl; constructor; [unfold in_agent_loop; auto|constructor]]);
    (destruct (next_node _ _) as [n'|e] eqn:Hnext;
      [|simpl; constructor; [unfold in_agent_loop; auto|constructor]]);
    match goal with
    | |- context [run E fuel limit (S step) n' ?st] =>
        specialize (IH limit (S step) n' st (agent_loop_next _ _ _ Hloop Hnext));
        destruct (run E fuel limit (S step) n' st)
    end;
    simpl in *; constructor; unfold in_agent_loop; auto.
Qed.

(** Once the run is in the agent loop ([call_model] at stage 2), it only
    ever runs [call_model] and [tools]: it never goes back to a
    classifier, the appointment fetch or a fixed message node. *)
Theorem stage2_stays_in_agent_loop (E : env) (fuel limit : nat)
  (input : list message)
  (Hstage : py_int (llm_router E input) = Some 2%Z) :
  exists rest,
    trace_of (invoke E fuel limit input) = [] \/
    trace_of (invoke E fuel limit input) = N_router :: rest /\
    Forall in_agent_loop rest.
Proof.
  unfold invoke, initial_state. destruct fuel as [|fuel]; [exists []; now left|].
  cbn [run]. destruct (Nat.leb limit 0); [exists []; now left|].
  cbn [run_node]. unfold router. cbn [messages]. rewrite Hstage.
  cbn [next_node]. unfold route_from_router. cbn -[run].
  pose proof (run_agent_loop_confined E fuel limit 1 N_call_model
    (mk_state input 2 0 [] (-1) (Nat.eqb 1 limit))
    (or_introl (or_introl eq_refl))) as H.
  destruct (run E fuel limit 1 N_call_model _) eqn:Hr; simpl in *;
    eexists; right; split; try reflexivity; exact H.
Qed.

(** One round of the agent loop before the last step: the model's
    response is appended as it is, tool calls included; [tools] then
    appends one tool message per requested call, in order, answering the
    call's id; control goes back to [call_model]. *)
Theorem agent_tool_round (E : env) (fuel limit step : nat) (s : State)
  (Hbudget : S (S step) < limit)
  (Htc : resp_tool_calls (llm_agent E (messages s)) <> [])
  (Hfresh : fresh_id (resp_id (llm_agent E (messages s))) (messages s) = true) :
  run E (S (S fuel)) limit step N_call_model s =
    visited N_call_model (visited N_tools
      (run E fuel limit (S (S step)) N_call_model
         (mk_state
            (messages s ++ response_message (llm_agent E (messages s)) ::
               map (fun tc => mk_message ToolMsg (run_tool E tc) [] None
                                (Some (tc_id tc)))
                   (resp_tool_calls (llm_agent E (messages s))))
            (router_stage s) (reschedule_or_cancel_decision s)
            (appointments s) (appointment_id s) false))).
Proof.
  destruct s as [ms rs d ap aid last]; cbn [messages] in *.
  set (r := llm_agent E ms) in *.
  assert (E1 : Nat.eqb (S step) limit = false) by (apply Nat.eqb_neq; lia).
  assert (E2 : Nat.eqb (S (S step)) limit = false) by (apply Nat.eqb_neq; lia).
  assert (Hcm : run_node E N_call_model
      (with_last_step (mk_state ms rs d ap aid last) (Nat.eqb (S step) limit)) =
      Ok (messages_update [response_message r])).
  { cbn [run_node]. unfold call_model, with_last_step.
    cbn [messages is_last_step]. rewrite E1. reflexivity. }
  assert (Hs1 : apply_update
      (with_last_step (mk_state ms rs d ap aid last) (Nat.eqb (S step) limit))
      (messages_update [response_message r]) =
      mk_state (ms ++ [response_message r]) rs d ap aid false).
  { unfold apply_update, with_last_step. cbn [messages upd_messages
      messages_update upd_router_stage upd_reschedule_or_cancel_decision
      upd_appointments upd_appointment_id router_stage
      reschedule_or_cancel_decision appointments appointment_id].
    rewrite E1, add_messages_fresh by (intros m [<-|[]]; exact Hfresh).
    reflexivity. }
  assert (Htools_run : run_node E N_tools
      (with_last_step (mk_state (ms ++ [response_message r]) rs d ap aid false)
         (Nat.eqb (S (S step)) limit)) =
      Ok (messages_update (map (tool_message E) (resp_tool_calls r)))).
  { cbn [run_node]. unfold tools, with_last_step. cbn [messages].
    rewrite last_some_app. reflexivity. }
  assert (Hs2 : apply_update
      (with_last_step (mk_state (ms ++ [response_message r]) rs d ap aid false)
         (Nat.eqb (S (S step)) limit))
      (messages_update (map (tool_message E) (resp_tool_calls r))) =
      mk_state (ms ++ response_message r :: map (tool_message E) (resp_tool_calls r))
        rs d ap aid false).
  { unfold apply_update, with_last_step. cbn [messages upd_messages
      messages_update upd_router_stage upd_reschedule_or_cancel_decision
      upd_appointments upd_appointment_id router_stage
      reschedule_or_cancel_decision appointments appointment_id].
    rewrite E2, add_messages_fresh.
    - now rewrite <- app_assoc.
    - intros m Hin. apply in_map_iff in Hin. destruct Hin as [tc' [<- _]].
      reflexivity. }
  rewrite (run_step_ok E (S fuel) limit step N_call_model N_tools
             (mk_state ms rs d ap aid last) _ ltac:(discriminate) ltac:(lia) Hcm).
  - rewrite Hs1.
    rewrite (run_step_ok E fuel limit (S step) N_tools N_call_model
               (mk_state (ms ++ [response_message r]) rs d ap aid false) _
               ltac:(discriminate) ltac:(lia) Htools_run); [|reflexivity].
    rewrite Hs2. reflexivity.
  - rewrite Hs1. cbn [next_node]. unfold route_model_output. cbn [messages].
    rewrite last_some_app. cbn [is_ai_message response_message msg_kind negb
      tool_calls]. destruct (resp_tool_calls r); [congruence|reflexivity].
Qed.

(** ** The history serialisation of [determine_appointment_to_cancel]
    (lines 111-114): ["\n".join(f'{msg.type}: "{msg.content}"' ...)]. *)

Definition msg_type_str (k : msg_type) : string :=
  match k with
  | SystemMsg => "system" | HumanMsg => "human" | AIMsg => "ai" | ToolMsg => "tool"
  end.

Definition dquote : string := String (ascii_of_nat 34) EmptyString.
Definition newline : string := String (ascii_of_nat 10) EmptyString.

Definition message_line (m : message) : string :=
  msg_type_str (msg_kind m) ++ ": " ++ dquote ++ content m ++ dquote.

(** Python's [sep.join(items)]. *)
Fixpoint py_join (sep : string) (l : list string) : string :=
  match l with
  | [] => ""
  | [x] => x
  | x :: r => x ++ sep ++ py_join sep r
  end.

Definition messages_str (ms : list message) : string :=
  py_join newline (map message_line ms).

Lemma string_append_assoc (a b c : string) :
  ((a ++ b) ++ c)%string = (a ++ (b ++ c))%string.
Proof. induction a as [|x a IH]; simpl; [reflexivity|now rewrite IH]. Qed.

(** The serialisation escapes neither quotes nor newlines: a human
    message whose content closes the quote and opens an [ai:] line
    serialises exactly like a human message followed by an AI message. *)
Theorem messages_str_not_escaped (c1 c2 : string) (id1 id2 : option string) :
  messages_str
    [mk_message HumanMsg (c1 ++ dquote ++ newline ++ "ai: " ++ dquote ++ c2)
       [] id1 None] =
  messages_str [mk_message HumanMsg c1 [] id1 None; AIMessage c2 id2].
Proof.
  unfold messages_str, message_line. cbn [map py_join msg_kind content
    msg_type_str AIMessage].
  rewrite !string_append_assoc. reflexivity.
Qed.

Lemma router_parse_contract_witness :
  (0 < 25)%nat /\
  run four_env 3 25 0 N_router (initial_state cancel_input) =
    visited N_router
      (run four_env 2 25 1 N_determine_reschedule_or_cancel
         (apply_update (with_last_step (initial_state cancel_input) false)
            (mk_update [] (Some 4%Z) None None None))).
Proof.
  split; [lia|].
  destruct (router_parse_contract four_env 2 25 0 (initial_state cancel_input)
              ltac:(lia)) as (_ & _ & _ & _ & H).
  exact (proj2 (proj2 (H 4%Z eq_refl)) ltac:(discriminate) ltac:(discriminate)).
Defined.

(** ** Witnesses of the further properties *)

Definition lf : ascii := ascii_of_nat 10.

Definition int_env : env :=
  mk_env (fun _ => padded_reply [" "%char] 42 [lf])
    (fun _ => padded_reply [" "%char] 42 [lf])
    (fun _ _ => padded_reply [" "%char] 42 [lf])
    (fun _ => mk_ai_response "" [] None) (fun _ => "").

Lemma classifier_nodes_accept_any_int_witness :
  router int_env (initial_state cancel_input) =
    Ok (mk_update [] (Some 42%Z) None None None).
Proof.
  exact (proj1 (classifier_nodes_accept_any_int int_env
    (initial_state cancel_input) 42 [" "%char] [lf] eq_refl
    ltac:(repeat constructor) ltac:(repeat constructor)) eq_refl).
Defined.

Definition word_env : env :=
  mk_env (fun _ => "two") (fun _ => "cancel") (fun _ _ => "")
    (fun _ => mk_ai_response "" [] None) (fun _ => "").

Lemma classifier_failure_aborts_witness :
  invoke word_env 3 25 cancel_input = Failed [N_router] ValueError.
Proof.
  exact (proj1 (classifier_failure_aborts word_env 2 25 0
    (initial_state cancel_input) ltac:(lia)) eq_refl).
Defined.

Definition stage_env (k : Z) (d : Z) : env :=
  mk_env (fun _ => py_str k) (fun _ => py_str d) (fun _ _ => "2")
    (fun _ => mk_ai_response "hello" [] (Some "run-2")) (fun _ => "").

Lemma stage1_run_witness :
  invoke (stage_env 1 1) 4 25 cancel_input =
    Finished [N_router; N_get_appointments_node; N_suggest_reschedule_node]
      (mk_state (cancel_input ++ [AIMessage suggest_text None]) 1 0
         get_appointments (-1) false).
Proof.
  exact (stage1_run (stage_env 1 1) 0 25 cancel_input
    ltac:(vm_compute; reflexivity) ltac:(lia)).
Defined.

Lemma stage3_escalation_run_witness :
  invoke (stage_env 3 1) 4 25 cancel_input =
    Finished [N_router; N_determine_reschedule_or_cancel;
              N_reschedule_message_node]
      (mk_state (cancel_input ++ [AIMessage escalate_text None]) 3 1 [] (-1)
         false).
Proof.
  exact (stage3_escalation_run (stage_env 3 1) 0 25 cancel_input 3 1
    ltac:(vm_compute; reflexivity) ltac:(discriminate) ltac:(discriminate)
    ltac:(vm_compute; reflexivity) ltac:(discriminate) ltac:(lia)).
Defined.

Lemma stage3_cancel_run_witness :
  invoke (stage_env 3 2) 5 25 cancel_input =
    Finished [N_router; N_determine_reschedule_or_cancel;
              N_determine_appointment_to_cancel; N_confirmation_message_node]
      (mk_state (cancel_input ++ [AIMessage confirm_text None]) 3 2 [] 2
         false).
Proof.
  exact (stage3_cancel_run (stage_env 3 2) 0 25 cancel_input 3 2
    ltac:(vm_compute; reflexivity) ltac:(discriminate) ltac:(discriminate)
    ltac:(vm_compute; reflexivity) ltac:(vm_compute; reflexivity) ltac:(lia)).
Defined.

Lemma stage2_stays_in_agent_loop_witness :
  exists rest,
    trace_of (invoke (stage_env 2 1) 5 25 cancel_input) = [] \/
    trace_of (invoke (stage_env 2 1) 5 25 cancel_input) = N_router :: rest /\
    Forall in_agent_loop rest.
Proof.
  exact (stage2_stays_in_agent_loop (stage_env 2 1) 5 25 cancel_input
    ltac:(vm_compute; reflexivity)).
Defined.

Lemma agent_tool_round_witness :
  run budget_env 3 5 0 N_call_model last_step_state =
    visited N_call_model (visited N_tools
      (run budget_env 1 5 2 N_call_model
         (mk_state
            (cancel_input ++
               response_message (llm_agent budget_env cancel_input) ::
               map (fun tc => mk_message ToolMsg (run_tool budget_env tc) []
                                None (Some (tc_id tc)))
                   (resp_tool_calls (llm_agent budget_env cancel_input)))
            2 0 [] (-1) false))).
Proof.
  exact (agent_tool_round budget_env 1 5 0 last_step_state
    ltac:(lia) ltac:(discriminate) eq_refl).
Defined.
